(** * Showroom discount uploader: validation and append-only ingestion

    A shallow embedding of [validate_data], [upload_to_bigquery] and the
    upload path of [main] from [src/main.py], with the properties of the
    validation routine and of the ingestion contract proved over it.

    The pandas DataFrame is a finite map from column names to columns
    together with the length of its index; a column is either of a numeric
    dtype (missing values are NaN) or of dtype object (arbitrary cells).
    [validate_data] assigns to columns of the frame it is given, so it is
    written in state-passing style: it returns the frame it leaves behind
    next to what the Python call returns or raises. *)

From Stdlib Require Import String List DecimalString DecimalNat.
From stdpp Require Import base decidable option list gmap strings fin_maps.
From stdpp Require Import sorting.

Local Open Scope string_scope.

(** ** Cells, columns and frames *)

(** A value held by a column of dtype object: a missing value (NaN or None),
    a Python string, or a Python number. *)
Inductive cell (num : Type) : Type :=
  | Null
  | Str (s : string)
  | Num (x : num).

Arguments Null {num}.
Arguments Str {num} s.
Arguments Num {num} x.

(** A column.  [NumericSeries] stands for the dtypes that
    [pd.api.types.is_numeric_dtype] accepts (its cells are numbers or NaN),
    [ObjectSeries] for dtype object, which is what the file readers produce
    as soon as one cell of the column is text. *)
Inductive Series (num : Type) : Type :=
  | NumericSeries (vals : list (option num))
  | ObjectSeries (vals : list (cell num)).

Arguments NumericSeries {num} vals.
Arguments ObjectSeries {num} vals.

(** [len(df)] is the length of the index; [df.columns] is the domain of
    [df_data]. *)
Record DataFrame (num : Type) : Type := mkDataFrame {
  df_len : nat;
  df_data : gmap string (Series num)
}.

Arguments mkDataFrame {num} _ _.
Arguments df_len {num} _.
Arguments df_data {num} _.

(** Exception classes that the modelled code raises or handles. *)
Inductive exception : Type :=
  | KeyError
  | FileNotFoundError
  | TypeError
  | OtherException.

(** What a call of [validate_data] does: return the pair [(ok, message)], or
    propagate an exception to its caller. *)
Inductive outcome : Type :=
  | Returns (ok : bool) (message : string)
  | Raises (e : exception).

(** The [errors] argument of [pd.to_numeric]. *)
Inductive errors_mode : Type :=
  | ErrorsRaise
  | ErrorsCoerce.

#[global] Instance cell_eq_dec {num} `{EqDecision num} : EqDecision (cell num).
Proof. solve_decision. Defined.

#[global] Instance exception_eq_dec : EqDecision exception.
Proof. solve_decision. Defined.

(** ** Generic list operations of pandas *)

(** [duplicated()] with the default [keep='first']: a position is marked
    when its value already occurred at an earlier position; [seen] holds the
    values met so far. *)
Fixpoint duplicated_from {A : Type} `{EqDecision A} (seen l : list A)
  : list bool :=
  match l with
  | [] => []
  | x :: l' => bool_decide (x ∈ seen) :: duplicated_from (x :: seen) l'
  end.

(** Boolean indexing [values[mask]]: the items at the marked positions, in
    order. *)
Fixpoint select {A : Type} (mask : list bool) (l : list A) : list A :=
  match mask, l with
  | b :: mask', x :: l' => if b then x :: select mask' l' else select mask' l'
  | _, _ => []
  end.

Section Validator.

Context {num : Type} {num_eq_dec : EqDecision num}.

(** The parser pandas applies to a string cell: [Some x] when the text is
    a number, [None] when it cannot be parsed.  It belongs to pandas, not
    to this repository, so the development is parametric in it. *)
Variable str_to_num : string -> option num.

(** *** Series operations used by the validator *)

(** [Series.tolist()] *)
Definition tolist (s : Series num) : list (cell num) :=
  match s with
  | NumericSeries vals =>
      (fun v => match v with Some x => Num x | None => Null end) <$> vals
  | ObjectSeries vals => vals
  end.

(** [Series.isnull()] *)
Definition isnull (s : Series num) : list bool :=
  (fun c => match c with Null => true | _ => false end) <$> tolist s.

(** [series == text], elementwise *)
Definition eq_scalar (s : Series num) (text : string) : list bool :=
  (fun c => match c with Str t => bool_decide (t = text) | _ => false end)
    <$> tolist s.

(** [.any()] on a boolean series *)
Definition any (mask : list bool) : bool := existsb id mask.

(** [Series.duplicated()] *)
Definition duplicated (s : Series num) : list bool :=
  duplicated_from [] (tolist s).

(** [sep.join(items)]: Python raises TypeError unless every item is a
    str. *)
Fixpoint str_items (items : list (cell num)) : option (list string) :=
  match items with
  | [] => Some []
  | Str s :: items' => cons s <$> str_items items'
  | _ :: _ => None
  end.

Definition join (sep : string) (items : list (cell num))
  : exception + string :=
  match str_items items with
  | Some strs => inr (String.concat sep strs)
  | None => inl TypeError
  end.

(** [pd.api.types.is_numeric_dtype(series)] *)
Definition is_numeric_dtype (s : Series num) : bool :=
  match s with
  | NumericSeries _ => true
  | ObjectSeries _ => false
  end.

(** Parse-or-null on one cell, as [pd.to_numeric(..., errors='coerce')]
    does it: numbers stay, missing values and the empty string give NaN,
    any other text goes through the parser and gives NaN when that
    fails. *)
Definition coerce_cell (c : cell num) : option num :=
  match c with
  | Null => None
  | Num x => Some x
  | Str s => if bool_decide (s = "") then None else str_to_num s
  end.

(** Whether [pd.to_numeric(..., errors='raise')] rejects the cell. *)
Definition unparseable (c : cell num) : bool :=
  match c with
  | Str s =>
      negb (bool_decide (s = "")) && negb (bool_decide (is_Some (str_to_num s)))
  | _ => false
  end.

(** [pd.to_numeric(series, errors=mode)]; [None] is a raised exception. *)
Definition to_numeric (mode : errors_mode) (s : Series num)
  : option (Series num) :=
  match s with
  | NumericSeries vals => Some (NumericSeries vals)
  | ObjectSeries vals =>
      match mode with
      | ErrorsCoerce => Some (NumericSeries (coerce_cell <$> vals))
      | ErrorsRaise =>
          if existsb unparseable vals then None
          else Some (NumericSeries (coerce_cell <$> vals))
      end
  end.

(** *** Frame access *)

(** [df[col]] for reading: [None] is the KeyError of a missing column. *)
Definition getitem (df : DataFrame num) (col : string) : option (Series num) :=
  df_data df !! col.

(** [df[col] = series] *)
Definition setitem (df : DataFrame num) (col : string) (s : Series num)
  : DataFrame num :=
  mkDataFrame (df_len df) (<[col := s]> (df_data df)).

(** *** validate_data *)

Definition required_columns : list string :=
  ["c_code"; "flash_price"; "consignment_price"; "speed_discount_price"].

Definition price_columns : list string :=
  ["flash_price"; "consignment_price"; "speed_discount_price"].

(** [df.columns] *)
Definition columns (df : DataFrame num) : gset string := dom (df_data df).

(** [[col for col in required_columns if col not in df.columns]] *)
Definition missing_columns (df : DataFrame num) : list string :=
  filter (fun col => col ∉ columns df) required_columns.

(** The loop over the price columns.  [Some o] is an early exit of the
    enclosing function with outcome [o]; [None] means the loop ran to its
    end.  The bare [except:] catches whatever [pd.to_numeric] raises. *)
Fixpoint normalize_prices (cols : list string) (df : DataFrame num)
  : DataFrame num * option outcome :=
  match cols with
  | [] => (df, None)
  | col :: rest =>
      match getitem df col with
      | None => (df, Some (Raises KeyError))
      | Some s =>
          if is_numeric_dtype s then normalize_prices rest df
          else
            match to_numeric ErrorsCoerce s with
            | Some s' => normalize_prices rest (setitem df col s')
            | None =>
                (df, Some (Returns false
                   ("Column " ++ col ++
                    " contains non-numeric values that cannot be converted")))
            end
      end
  end.

Definition validate_data (df : DataFrame num) : DataFrame num * outcome :=
  match missing_columns df with
  | _ :: _ =>
      (df, Returns false
             ("Missing required columns: " ++
              String.concat ", " (missing_columns df)))
  | [] =>
      match getitem df "c_code" with
      | None => (df, Raises KeyError)
      | Some codes =>
          if any (isnull codes) || any (eq_scalar codes "") then
            (df, Returns false "c_code column cannot have empty values")
          else if any (duplicated codes) then
            match join ", " (select (duplicated codes) (tolist codes)) with
            | inr listing =>
                (df, Returns false
                       ("Duplicate c_code values found: " ++ listing))
            | inl e => (df, Raises e)
            end
          else
            match normalize_prices price_columns df with
            | (df', Some o) => (df', o)
            | (df', None) => (df', Returns true "Data validation successful")
            end
      end
  end.

End Validator.

(** ** The store and the ingestor *)

(** A row as the table holds it: field name to value. *)
Abbreviation Row num := (gmap string (cell num)).

Inductive WriteDisposition : Type :=
  | WRITE_APPEND
  | WRITE_TRUNCATE
  | WRITE_EMPTY.

Record SchemaField : Type := mkSchemaField {
  field_name : string;
  field_type : string;
  field_mode : string
}.

Record LoadJobConfig : Type := mkLoadJobConfig {
  write_disposition : WriteDisposition;
  schema : list SchemaField
}.

(** One call of [client.load_table_from_dataframe(df, table_id, job_config)]. *)
Record LoadJob (num : Type) : Type := mkLoadJob {
  job_dataframe : DataFrame num;
  job_table_id : string;
  job_config : LoadJobConfig
}.

Arguments mkLoadJob {num} _ _ _.
Arguments job_dataframe {num} _.
Arguments job_table_id {num} _.
Arguments job_config {num} _.

Inductive Credentials : Type :=
  | ServiceAccount (info : string).

(** What a credential source answers: credentials, or an exception of some
    class whose [str(e)] is [text]. *)
Inductive attempt (A : Type) : Type :=
  | Got (a : A)
  | Failed (e : exception) (text : string).

Arguments Got {A} a.
Arguments Failed {A} e text.

(** Everything outside the process that [upload_to_bigquery] touches.
    [secrets_credentials] is
    [from_service_account_info(st.secrets["service_account"])],
    [file_credentials] is [from_service_account_file('service_account.json')].
    [client_failure] and [load_failure] give the text of the exception that
    creating the client, respectively submitting the job and waiting for
    [job.result()], raises; [None] means the call went through (the store
    confirmed the write).  [partial_rows] is what the store has written of a
    job by the time it fails: the code does not roll back, so whatever the
    store did stays.  [table] is the content of the target table and
    [load_jobs] the jobs submitted so far, oldest first.

    The first five fields are the answers the surroundings give to one
    call.  Nothing in the code fixes them from one call to the next, so
    statements about two calls take the answers of each call apart. *)
Record World (num : Type) : Type := mkWorld {
  secrets_credentials : attempt Credentials;
  file_credentials : attempt Credentials;
  client_failure : Credentials -> option string;
  load_failure : LoadJob num -> option string;
  partial_rows : LoadJob num -> list (Row num);
  table : list (Row num);
  load_jobs : list (LoadJob num)
}.

Arguments mkWorld {num} _ _ _ _ _ _ _.
Arguments secrets_credentials {num} _.
Arguments file_credentials {num} _.
Arguments client_failure {num} _ _.
Arguments load_failure {num} _ _.
Arguments partial_rows {num} _ _.
Arguments table {num} _.
Arguments load_jobs {num} _.

Section Ingestor.

Context {num : Type} {num_eq_dec : EqDecision num}.
Variable str_to_num : string -> option num.

(** Record [i] of the frame: every column's cell at position [i]. *)
Definition row_at (df : DataFrame num) (i : nat) : Row num :=
  omap (fun s => tolist s !! i) (df_data df).

(** The records of the frame in index order; there are [len(df)] of
    them. *)
Definition rows_of (df : DataFrame num) : list (Row num) :=
  row_at df <$> seq 0 (df_len df).

(** What a load job that wrote the rows [new] leaves in the table, by write
    disposition (WRITE_EMPTY only ever writes to an empty table). *)
Definition write_rows (d : WriteDisposition) (old new : list (Row num))
  : list (Row num) :=
  match d with
  | WRITE_APPEND => old ++ new
  | WRITE_TRUNCATE => new
  | WRITE_EMPTY => new
  end.

(** [str(n)] for a natural number *)
Definition str_of_nat (n : nat) : string :=
  NilEmpty.string_of_uint (Nat.to_uint n).

Definition table_id : string :=
  "pricing-338819.wholesale_test.showroom_discount".

Definition upload_job_config : LoadJobConfig :=
  mkLoadJobConfig WRITE_APPEND
    [ mkSchemaField "c_code" "STRING" "REQUIRED";
      mkSchemaField "flash_price" "FLOAT64" "NULLABLE";
      mkSchemaField "consignment_price" "FLOAT64" "NULLABLE";
      mkSchemaField "speed_discount_price" "FLOAT64" "NULLABLE" ].

(** The handler of the outer [try]: [except Exception as e]. *)
Definition append_error (text : string) : bool * string :=
  (false, "Error appending to BigQuery: " ++ text).

(** Lines 64-84, once credentials are at hand.  An exception from creating
    the client comes before any job; an exception from the load leaves in
    the table whatever the store wrote of the job before it failed. *)
Definition load_with (credentials : Credentials) (df : DataFrame num)
    (w : World num) : World num * (bool * string) :=
  match client_failure w credentials with
  | Some text => (w, append_error text)
  | None =>
      let job := mkLoadJob df table_id upload_job_config in
      let after written :=
        mkWorld (secrets_credentials w) (file_credentials w)
                (client_failure w) (load_failure w) (partial_rows w)
                (write_rows (write_disposition upload_job_config)
                            (table w) written)
                (load_jobs w ++ [job]) in
      match load_failure w job with
      | Some text => (after (partial_rows w job), append_error text)
      | None =>
          (after (rows_of df),
           (true, "Successfully uploaded " ++ str_of_nat (df_len df) ++
                  " rows to showroom_discount table"))
      end
  end.

Definition upload_to_bigquery (df : DataFrame num) (w : World num)
  : World num * (bool * string) :=
  match secrets_credentials w with
  | Got credentials => load_with credentials df w
  | Failed KeyError _ | Failed FileNotFoundError _ =>
      match file_credentials w with
      | Got credentials => load_with credentials df w
      | Failed FileNotFoundError _ =>
          (w, (false, "Error: No credentials found for BigQuery access"))
      | Failed _ text => (w, append_error text)
      end
  | Failed _ text => (w, append_error text)
  end.

(** The upload path of [main] (lines 174-195) without its rendering
    calls: validate the frame and, when it is valid and the button is
    pressed, upload it.  [df] is one Python object: the frame handed to
    [upload_to_bigquery] is the one [validate_data] has assigned to.  The
    second component is what [upload_to_bigquery] returned, when it was
    called. *)
Definition main (df : DataFrame num) (button : bool) (w : World num)
  : World num * option (bool * string) :=
  match validate_data str_to_num df with
  | (df', Returns true _) =>
      if button then
        let '(w', res) := upload_to_bigquery df' w in (w', Some res)
      else (w, None)
  | (_, _) => (w, None)
  end.

End Ingestor.


(** ** A parser for the scenarios *)

(** Unsigned decimal integers, read digit by digit; any other text is not a
    number.  The theorems below hold for every parser; this one instantiates
    them on the datasets of the scenarios. *)
Fixpoint digits_value (acc : Z) (s : string) : option Z :=
  match s with
  | EmptyString => Some acc
  | String a s' =>
      let n := Z.of_nat (Ascii.nat_of_ascii a) in
      if (48 <=? n)%Z && (n <=? 57)%Z
      then digits_value (10 * acc + (n - 48))%Z s'
      else None
  end.

Definition parse_digits (s : string) : option Z :=
  match s with
  | EmptyString => None
  | _ => digits_value 0 s
  end.

(** Scenario D: one record whose flash_price is the text "abc". *)
Definition scenario_D : DataFrame Z :=
  mkDataFrame 1
    (list_to_map
       [ ("c_code", ObjectSeries [Str "c-001"]);
         ("flash_price", ObjectSeries [Str "abc"]);
         ("consignment_price", NumericSeries [Some 27000%Z]);
         ("speed_discount_price", NumericSeries [Some 24000%Z]) ]).

(** Scenario A, as a spreadsheet reader may deliver it: flash_price read as
    text, consignment_price with an empty cell. *)
Definition scenario_A : DataFrame Z :=
  mkDataFrame 2
    (list_to_map
       [ ("c_code", ObjectSeries [Str "c-001"; Str "c-002"]);
         ("flash_price", ObjectSeries [Str "25000"; Str "30000"]);
         ("consignment_price", ObjectSeries [Num 27000%Z; Str ""]);
         ("speed_discount_price", NumericSeries [Some 24000%Z; Some 21000%Z]) ]).

(** Scenario B with a third occurrence of the repeated code. *)
Definition scenario_triple : DataFrame Z :=
  mkDataFrame 4
    (list_to_map
       [ ("c_code",
          ObjectSeries [Str "c-001"; Str "c-002"; Str "c-001"; Str "c-001"]);
         ("flash_price",
          NumericSeries [Some 25000%Z; Some 26000%Z; Some 30000%Z; Some 31000%Z]);
         ("consignment_price",
          NumericSeries [Some 27000%Z; Some 28000%Z; Some 32000%Z; Some 33000%Z]);
         ("speed_discount_price",
          NumericSeries [Some 24000%Z; Some 25000%Z; Some 29000%Z; Some 30000%Z]) ]).

(** Scenario C with more wrong with it: an empty c_code, a repeated c_code
    and a price that is not a number. *)
Definition scenario_C : DataFrame Z :=
  mkDataFrame 3
    (list_to_map
       [ ("c_code", ObjectSeries [Str ""; Str "c-001"; Str "c-001"]);
         ("flash_price", ObjectSeries [Str "abc"; Str "25000"; Str "26000"]);
         ("consignment_price", NumericSeries [Some 27000%Z; None; None]);
         ("speed_discount_price", NumericSeries [Some 24000%Z; None; None]) ]).

(** A dataset without flash_price and speed_discount_price, whose only
    record has a missing c_code. *)
Definition two_columns : DataFrame Z :=
  mkDataFrame 1
    (list_to_map
       [ ("c_code", ObjectSeries [Null]);
         ("consignment_price", ObjectSeries [Str "abc"]) ]).

(** A dataset with zero records. *)
Definition no_records : DataFrame Z :=
  mkDataFrame 0
    (list_to_map
       [ ("c_code", ObjectSeries []);
         ("flash_price", ObjectSeries []);
         ("consignment_price", ObjectSeries []);
         ("speed_discount_price", ObjectSeries []) ]).

(** A c_code column of numbers with a repeated value. *)
Definition numeric_codes : DataFrame Z :=
  mkDataFrame 2
    (list_to_map
       [ ("c_code", NumericSeries [Some 1%Z; Some 1%Z]);
         ("flash_price", NumericSeries [Some 25000%Z; Some 30000%Z]);
         ("consignment_price", NumericSeries [Some 27000%Z; Some 32000%Z]);
         ("speed_discount_price", NumericSeries [Some 24000%Z; Some 29000%Z]) ]).

(** A row uploaded earlier. *)
Definition earlier_row : Row Z :=
  list_to_map
    [ ("c_code", Str "c-000"); ("flash_price", Num 20000%Z);
      ("consignment_price", Null); ("speed_discount_price", Null) ].

(** Scenario E: no secret configured and no credential file. *)
Definition world_without_credentials : World Z :=
  mkWorld
    (Failed KeyError "'service_account'")
    (Failed FileNotFoundError
       "[Errno 2] No such file or directory: 'service_account.json'")
    (fun _ => None) (fun _ => None) (fun _ => []) [earlier_row] [].

(** No secret configured, a credential file in place, and a store that
    confirms every job. *)
Definition world_with_file : World Z :=
  mkWorld
    (Failed FileNotFoundError "No secrets files found")
    (Got (ServiceAccount "uploader@pricing-338819.iam.gserviceaccount.com"))
    (fun _ => None) (fun _ => None) (fun _ => []) [earlier_row] [].

(** ** The template *)

(** [create_template]: three sample records; the price lists hold Python
    floats, so the three price columns are of a numeric dtype. *)
Definition create_template : DataFrame Z :=
  mkDataFrame 3
    (list_to_map
       [ ("c_code", ObjectSeries [Str "c-001"; Str "c-002"; Str "c-003"]);
         ("flash_price",
          NumericSeries [Some 25000%Z; Some 30000%Z; Some 22000%Z]);
         ("consignment_price",
          NumericSeries [Some 27000%Z; Some 32000%Z; Some 24000%Z]);
         ("speed_discount_price",
          NumericSeries [Some 24000%Z; Some 29000%Z; Some 21000%Z]) ]).

(** A secret that is configured but malformed, next to a credential file
    that is in order. *)
Definition world_with_bad_secret : World Z :=
  mkWorld
    (Failed OtherException
       "Service account info was not in the expected format")
    (Got (ServiceAccount "uploader@pricing-338819.iam.gserviceaccount.com"))
    (fun _ => None) (fun _ => None) (fun _ => []) [earlier_row] [].


(** No secret configured, and a [service_account.json] that exists but
    holds no JSON: the loader raises a parse error, not
    FileNotFoundError. *)
Definition world_with_garbage_file : World Z :=
  mkWorld
    (Failed KeyError "'service_account'")
    (Failed OtherException "Expecting value: line 1 column 1 (char 0)")
    (fun _ => None) (fun _ => None) (fun _ => []) [earlier_row] [].

(** The world a second upload of the template meets after a first one into
    [world_with_file]: the store is as the first call left it, and the
    credentials now come from a secret that has been configured
    meanwhile. *)
Definition world_at_second_call : World Z :=
  mkWorld
    (Got (ServiceAccount "uploader@pricing-338819.iam.gserviceaccount.com"))
    (Failed FileNotFoundError
       "[Errno 2] No such file or directory: 'service_account.json'")
    (fun _ => None) (fun _ => None) (fun _ => [])
    (table (upload_to_bigquery create_template world_with_file).1)
    (load_jobs (upload_to_bigquery create_template world_with_file).1).

(** * Properties *)

(** Closed decidable goals are settled by evaluation. *)
#[local] Ltac by_compute := apply (bool_decide_unpack _); vm_compute; exact I.

(** All required columns are among the columns of a concrete frame. *)
#[local] Ltac all_required :=
  let col := fresh "col" in
  let Hin := fresh "Hin" in
  intros col Hin; revert col Hin; apply Forall_forall; by_compute.

Section ValidatorFacts.

Context {num : Type} {num_eq_dec : EqDecision num}.
Variable str_to_num : string -> option num.

Implicit Types (df : DataFrame num) (s : Series num) (c : cell num).
Implicit Types (col : string).

#[local] Instance Str_inj : Inj (=) (=) (@Str num).
Proof. intros ?? [=]. done. Qed.

(** *** Masks *)

Lemma any_true (mask : list bool) : any mask = true <-> true ∈ mask.
Proof.
  unfold any. rewrite existsb_exists. split.
  - intros (b & Hin & Hb). unfold id in Hb. subst b.
    by apply list_elem_of_In.
  - intros Hin. exists true. split; [by apply list_elem_of_In | done].
Qed.

Lemma any_isnull s : any (isnull s) = true <-> Null ∈ tolist s.
Proof.
  rewrite any_true. unfold isnull. rewrite list_elem_of_fmap. split.
  - intros (c & Hc & Hin). by destruct c.
  - intros Hin. by exists Null.
Qed.

Lemma any_eq_scalar s text :
  any (eq_scalar s text) = true <-> Str text ∈ tolist s.
Proof.
  rewrite any_true. unfold eq_scalar. rewrite list_elem_of_fmap. split.
  - intros (c & Hc & Hin). destruct c as [|t|x]; try done.
    symmetry in Hc. apply bool_decide_eq_true in Hc. by subst t.
  - intros Hin. exists (Str text). split; [|done].
    symmetry. by apply bool_decide_eq_true.
Qed.

(** *** [duplicated] marks exactly the repeated occurrences *)

Lemma any_duplicated_from {A : Type} `{EqDecision A} (seen l : list A) :
  any (duplicated_from seen l) = false <->
  NoDup l /\ forall x, x ∈ l -> x ∉ seen.
Proof.
  revert seen. induction l as [|c l IH]; intros seen; simpl.
  - split; [|done]. intros _. split; [constructor|]. intros c Hc.
    by apply elem_of_nil in Hc.
  - unfold any in *. simpl. unfold id at 1.
    rewrite orb_false_iff, bool_decide_eq_false, IH, NoDup_cons.
    split.
    + intros (Hc & Hnd & Hseen). split; [split; [|done]|].
      * intros Hin. apply (Hseen c Hin). by left.
      * intros c' [->|Hin]%elem_of_cons; [done|].
        intros Hs. apply (Hseen c' Hin). by right.
    + intros ((Hc & Hnd) & Hseen). split; [|split; [done|]].
      * apply Hseen. by left.
      * intros c' Hin [->|Hs]%elem_of_cons; [done|].
        apply (Hseen c'); [by right|done].
Qed.

Lemma any_duplicated s : any (duplicated s) = false <-> NoDup (tolist s).
Proof.
  unfold duplicated. rewrite any_duplicated_from. split; [by intros [? _]|].
  intros Hnd. split; [done|]. intros c _ Hc. by apply elem_of_nil in Hc.
Qed.

Lemma duplicated_from_fmap {A B : Type} `{EqDecision A} `{EqDecision B}
    (f : A -> B) `{!Inj (=) (=) f} (seen l : list A) :
  duplicated_from (f <$> seen) (f <$> l) = duplicated_from seen l.
Proof.
  revert seen. induction l as [|x l IH]; intros seen; simpl; [done|].
  f_equal.
  - apply bool_decide_ext. rewrite list_elem_of_fmap. split.
    + intros (y & Hy & Hin). by apply (inj f) in Hy as ->.
    + intros Hin. by exists x.
  - apply (IH (x :: seen)).
Qed.

Lemma select_fmap {A B : Type} (f : A -> B) (mask : list bool) (l : list A) :
  select mask (f <$> l) = f <$> select mask l.
Proof.
  revert l. induction mask as [|b mask IH]; intros [|x l]; simpl; try done.
  destruct b; simpl; by rewrite IH.
Qed.

Lemma select_sublist {A : Type} (mask : list bool) (l : list A) :
  sublist (select mask l) l.
Proof.
  revert l. induction mask as [|b mask IH]; intros [|x l]; simpl;
    try apply sublist_nil_l.
  destruct b; [by apply sublist_skip | by apply sublist_cons].
Qed.

(** Every occurrence of a value but its first is selected: a value that
    has not been seen before is listed once less than it occurs. *)
Lemma count_select_duplicated {A : Type} `{EqDecision A}
    (dec : forall x y : A, {x = y} + {x <> y}) (seen l : list A) (v : A) :
  count_occ dec (select (duplicated_from seen l) l) v =
  (count_occ dec l v - (if bool_decide (v ∈ seen) then 0 else 1))%nat.
Proof.
  revert seen. induction l as [|x l IH]; intros seen; simpl; [done|].
  specialize (IH (x :: seen)).
  destruct (dec x v) as [->|Hne].
  - rewrite bool_decide_eq_true_2 in IH by (by left).
    rewrite Nat.sub_0_r in IH.
    case_bool_decide; simpl.
    + destruct (dec v v); [|done]. rewrite IH. lia.
    + rewrite IH. lia.
  - assert (bool_decide (v ∈ x :: seen) = bool_decide (v ∈ seen)) as Heq.
    { apply bool_decide_ext. rewrite elem_of_cons.
      split; [intros [->|?]; [by destruct Hne | done] | by right]. }
    rewrite Heq in IH.
    destruct (bool_decide (x ∈ seen)); simpl; [|done].
    by destruct (dec x v).
Qed.

(** The listed duplicates are the values at the marked positions, taken in
    increasing order of position; a position is marked when its value has
    been seen before or stands at an earlier position. *)
Lemma select_duplicated_positions {A : Type} `{EqDecision A}
    (seen l : list A) :
  exists positions : list nat,
    StronglySorted lt positions /\
    (forall i,
        i ∈ positions <->
        exists v, l !! i = Some v /\ (v ∈ seen \/ v ∈ take i l)) /\
    Forall2 (fun i v => l !! i = Some v) positions
            (select (duplicated_from seen l) l).
Proof.
  revert seen. induction l as [|x l IH]; intros seen.
  - exists []. split; [constructor|]. split; [|constructor].
    intros i. split; [by intros ?%elem_of_nil|].
    by intros (v & ? & _).
  - destruct (IH (x :: seen)) as (pos & Hsorted & Hmem & Hvals).
    assert (StronglySorted lt (S <$> pos)) as Hsorted'.
    { apply (StronglySorted_fmap S lt lt); [|done]. intros a b. lia. }
    assert (forall i,
      S i ∈ S <$> pos <->
      exists v, (x :: l) !! S i = Some v /\
                (v ∈ seen \/ v ∈ take (S i) (x :: l))) as Hmem'.
    { intros i. rewrite (list_elem_of_fmap_inj S), Hmem. simpl.
      split; intros (v & Hv & Hin); exists v; (split; [done|]);
        rewrite !elem_of_cons in *; tauto. }
    assert (Forall2 (fun i v => (x :: l) !! i = Some v) (S <$> pos)
              (select (duplicated_from (x :: seen) l) l)) as Hvals'.
    { by apply Forall2_fmap_l. }
    assert (0%nat ∉ S <$> pos) as Hzero.
    { intros (i & ? & _)%list_elem_of_fmap. done. }
    simpl. case_bool_decide as Hx.
    + exists (0%nat :: (S <$> pos)). split; [|split].
      * constructor; [done|]. apply Forall_fmap, Forall_forall.
        intros i _. simpl. lia.
      * intros [|i].
        -- split; [|by left]. intros _. exists x. split; [done|by left].
        -- rewrite elem_of_cons, <- Hmem'. split; [by intros [?|?]|by right].
      * by constructor.
    + exists (S <$> pos). split; [done|]. split; [|done].
      intros [|i]; [|apply Hmem'].
      split; [done|]. simpl. intros (v & [= <-] & [?|?%elem_of_nil]); done.
Qed.

(** *** [join] on text *)

Lemma str_items_fmap (strs : list string) :
  str_items (Str (num:=num) <$> strs) = Some strs.
Proof.
  induction strs as [|t strs IH]; [done|].
  rewrite fmap_cons. cbn [str_items]. by rewrite IH.
Qed.

(** *** Column presence *)

Lemma getitem_is_Some df col : is_Some (getitem df col) <-> col ∈ columns df.
Proof. unfold getitem, columns. by rewrite elem_of_dom. Qed.

Lemma elem_of_missing_columns df col :
  col ∈ missing_columns df <->
  col ∈ required_columns /\ getitem df col = None.
Proof.
  unfold missing_columns. rewrite list_elem_of_filter.
  rewrite <- getitem_is_Some, <- eq_None_not_Some. tauto.
Qed.

Lemma missing_columns_nil df :
  missing_columns df = [] <->
  forall col, col ∈ required_columns -> is_Some (getitem df col).
Proof.
  split.
  - intros Hnil col Hin. destruct (getitem df col) eqn:Hget; [by eexists|].
    assert (col ∈ missing_columns df) as Hm
      by (by apply elem_of_missing_columns).
    rewrite Hnil in Hm. by apply elem_of_nil in Hm.
  - intros Hall. destruct (missing_columns df) as [|col m] eqn:Hm; [done|].
    assert (col ∈ missing_columns df) as Hin by (rewrite Hm; by left).
    apply elem_of_missing_columns in Hin as [Hreq Hnone].
    destruct (Hall col Hreq) as [s Hs]. congruence.
Qed.

Lemma price_columns_required col :
  col ∈ price_columns -> col ∈ required_columns.
Proof. intros Hin. unfold required_columns. right. exact Hin. Qed.

(** *** The coercion and the loop over the price columns *)

Lemma to_numeric_coerce_idem s s' :
  to_numeric str_to_num ErrorsCoerce s = Some s' ->
  to_numeric str_to_num ErrorsCoerce s' = Some s'.
Proof. destruct s; simpl; intros [= <-]; done. Qed.

Lemma to_numeric_coerce_is_Some s :
  is_Some (to_numeric str_to_num ErrorsCoerce s).
Proof. destruct s; simpl; by eexists. Qed.

Lemma getitem_setitem df col col' s :
  getitem (setitem df col s) col' =
  if bool_decide (col = col') then Some s else getitem df col'.
Proof.
  unfold getitem, setitem. simpl. rewrite lookup_insert.
  by destruct (decide (col = col')); [rewrite bool_decide_eq_true_2
                                     |rewrite bool_decide_eq_false_2].
Qed.

(** With its columns present the loop runs to its end, and leaves under
    every column it visits what parse-or-null makes of it. *)
Lemma normalize_prices_ok (cols : list string) df :
  (forall col, col ∈ cols -> is_Some (getitem df col)) ->
  exists df',
    normalize_prices str_to_num cols df = (df', None) /\
    df_len df' = df_len df /\
    forall col,
      getitem df' col =
      if bool_decide (col ∈ cols)
      then getitem df col ≫= to_numeric str_to_num ErrorsCoerce
      else getitem df col.
Proof.
  revert df. induction cols as [|col0 rest IH]; intros df Hall.
  - exists df. split; [done|]. split; [done|]. intros col.
    rewrite bool_decide_eq_false_2; [done|]. apply not_elem_of_nil.
  - destruct (Hall col0) as [s Hs]; [by left|].
    assert (forall col (o1 o2 : option (Series num)),
               col <> col0 ->
               (if bool_decide (col ∈ rest) then o1 else o2) =
               (if bool_decide (col ∈ col0 :: rest) then o1 else o2))
      as Hother.
    { intros col o1 o2 Hne.
      rewrite (bool_decide_ext (col ∈ col0 :: rest) (col ∈ rest)); [done|].
      rewrite elem_of_cons. split; [by intros [?|?] | by right]. }
    cbn [normalize_prices]. rewrite Hs.
    destruct (is_numeric_dtype s) eqn:Hnum.
    + destruct (IH df) as (df' & Hrun & Hlen & Hcols).
      { intros col Hin. apply Hall. by right. }
      exists df'. split; [done|]. split; [done|]. intros col.
      rewrite Hcols. destruct (decide (col = col0)) as [->|Hne].
      * rewrite Hs, (bool_decide_eq_true_2 (col0 ∈ col0 :: rest))
          by (by left).
        destruct s; [|done]. simpl. by destruct (bool_decide _).
      * by apply Hother.
    + destruct (to_numeric_coerce_is_Some s) as [s' Hs'].
      rewrite Hs'.
      destruct (IH (setitem df col0 s')) as (df' & Hrun & Hlen & Hcols).
      { intros col Hin. rewrite getitem_setitem.
        case_bool_decide; [by eexists|]. apply Hall. by right. }
      exists df'. split; [done|]. split; [done|]. intros col.
      rewrite Hcols, getitem_setitem.
      destruct (decide (col = col0)) as [->|Hne].
      * rewrite (bool_decide_eq_true_2 (col0 = col0)) by done.
        rewrite (bool_decide_eq_true_2 (col0 ∈ col0 :: rest)) by (by left).
        rewrite Hs. simpl. rewrite Hs'.
        rewrite (to_numeric_coerce_idem s s' Hs').
        by destruct (bool_decide _).
      * rewrite (bool_decide_eq_false_2 (col0 = col)) by done.
        by apply Hother.
Qed.

(** *** The two ways out of [validate_data] *)

(** The accepting path: all columns present, no missing or empty c_code,
    no repeated c_code. *)
Lemma validate_data_ok df codes :
  missing_columns df = [] ->
  getitem df "c_code" = Some codes ->
  Null ∉ tolist codes ->
  Str "" ∉ tolist codes ->
  NoDup (tolist codes) ->
  exists df',
    validate_data str_to_num df =
      (df', Returns true "Data validation successful") /\
    df_len df' = df_len df /\
    forall col,
      getitem df' col =
      if bool_decide (col ∈ price_columns)
      then getitem df col ≫= to_numeric str_to_num ErrorsCoerce
      else getitem df col.
Proof.
  intros Hmiss Hcodes Hnull Hempty Hnd.
  destruct (normalize_prices_ok price_columns df)
    as (df' & Hrun & Hlen & Hcols).
  { intros col Hin. apply (proj1 (missing_columns_nil df) Hmiss).
    by apply price_columns_required. }
  exists df'. split; [|done].
  unfold validate_data. rewrite Hmiss, Hcodes.
  rewrite <- any_isnull in Hnull. apply not_true_is_false in Hnull.
  rewrite <- any_eq_scalar in Hempty. apply not_true_is_false in Hempty.
  apply any_duplicated in Hnd.
  by rewrite Hnull, Hempty, Hnd, Hrun.
Qed.

(** Every other path returns or raises before the frame is touched. *)
Lemma validate_data_cases df :
  (exists o, validate_data str_to_num df = (df, o) /\
             o <> Returns true "Data validation successful") \/
  (exists codes,
      missing_columns df = [] /\
      getitem df "c_code" = Some codes /\
      (Null ∉ tolist codes) /\ (Str "" ∉ tolist codes) /\
      NoDup (tolist codes)).
Proof.
  unfold validate_data.
  destruct (missing_columns df) as [|m ms] eqn:Hmiss;
    [|left; by eexists].
  destruct (getitem df "c_code") as [codes|] eqn:Hcodes;
    [|left; by eexists].
  destruct (any (isnull codes)) eqn:Hnull; [left; by eexists|].
  destruct (any (eq_scalar codes "")) eqn:Hempty; [left; by eexists|].
  destruct (any (duplicated codes)) eqn:Hdup.
  - left. simpl. destruct (join _ _); by eexists.
  - right. exists codes. repeat split; try done.
    + rewrite <- any_isnull. congruence.
    + rewrite <- any_eq_scalar. congruence.
    + by apply any_duplicated.
Qed.

Lemma to_numeric_length mode s s' :
  to_numeric str_to_num mode s = Some s' ->
  length (tolist s') = length (tolist s).
Proof.
  destruct s as [vals|vals]; simpl.
  - by intros [= <-].
  - destruct mode; [destruct (existsb _ _); [done|]|];
      intros [= <-]; simpl; by rewrite !length_fmap.
Qed.

(** ** Check 1: schema completeness *)

(** C6: a dataset that lacks one of the four required columns is rejected
    with "Missing required columns: " followed by exactly the missing
    required names, comma-joined in the order of the required list; the
    frame is left as it was and nothing about its rows is consulted. *)
Theorem missing_column_rejected df :
  (exists col, col ∈ required_columns /\ col ∉ columns df) ->
  validate_data str_to_num df =
    (df, Returns false
           ("Missing required columns: " ++
            String.concat ", " (missing_columns df))) /\
  (forall col,
      col ∈ missing_columns df <->
      col ∈ required_columns /\ col ∉ columns df) /\
  sublist (missing_columns df) required_columns /\
  NoDup (missing_columns df).
Proof.
  intros (col & Hreq & Hcol).
  assert (forall col', col' ∈ missing_columns df <->
                       col' ∈ required_columns /\ col' ∉ columns df)
    as Hchar.
  { intros col'. unfold missing_columns. rewrite list_elem_of_filter. tauto. }
  assert (sublist (missing_columns df) required_columns) as Hsub
    by apply sublist_filter.
  split; [|split; [done|split; [done|]]].
  - unfold validate_data.
    destruct (missing_columns df) as [|m ms] eqn:Hm; [|done].
    assert (col ∈ []) as Hin by (by apply Hchar).
    by apply elem_of_nil in Hin.
  - apply (sublist_NoDup _ required_columns); [|done].
    unfold required_columns. apply (bool_decide_unpack _). by vm_compute.
Qed.

(** ** Check 2: c_code present and non-empty *)

(** C5: with all four columns present, one missing (null) or empty-string
    c_code makes [validate_data] return failure with the fixed message
    about c_code; nothing is assumed about repeated c_codes or about the
    price columns, so this result is returned whatever else is wrong with
    the dataset. *)
Theorem empty_c_code_rejected df codes :
  (forall col, col ∈ required_columns -> col ∈ columns df) ->
  getitem df "c_code" = Some codes ->
  Null ∈ tolist codes \/ Str "" ∈ tolist codes ->
  validate_data str_to_num df =
    (df, Returns false "c_code column cannot have empty values").
Proof.
  intros Hall Hcodes Hbad.
  assert (missing_columns df = []) as Hmiss.
  { apply missing_columns_nil. intros col Hin.
    apply getitem_is_Some. by apply Hall. }
  unfold validate_data. rewrite Hmiss, Hcodes.
  destruct Hbad as [Hnull|Hempty].
  - apply any_isnull in Hnull. by rewrite Hnull.
  - apply any_eq_scalar in Hempty. rewrite Hempty.
    by rewrite orb_true_r.
Qed.

(** ** Check 3: uniqueness of c_code *)

(** C3 (as the code has it): with all four columns present and a c_code
    column of non-empty strings in which some value is repeated,
    [validate_data] returns failure with "Duplicate c_code values found: "
    followed by the comma-joined second and later occurrences, in row
    order: the listed values are the c_codes at exactly those rows whose
    c_code also stands in an earlier row, taken in increasing order of row.
    So every value is listed once less often than it occurs, and a value
    that occurs three times is listed twice. *)
Theorem duplicate_c_code_rejected df (codes : list string) :
  (forall col, col ∈ required_columns -> col ∈ columns df) ->
  getitem df "c_code" = Some (ObjectSeries (Str <$> codes)) ->
  "" ∉ codes ->
  ~ NoDup codes ->
  exists listed : list string,
    validate_data str_to_num df =
      (df, Returns false
             ("Duplicate c_code values found: " ++
              String.concat ", " listed)) /\
    (exists rows : list nat,
        StronglySorted lt rows /\
        (forall i,
            i ∈ rows <->
            exists j v,
              (j < i)%nat /\ codes !! j = Some v /\ codes !! i = Some v) /\
        Forall2 (fun i v => codes !! i = Some v) rows listed) /\
    sublist listed codes /\
    forall v,
      count_occ string_dec listed v = (count_occ string_dec codes v - 1)%nat.
Proof.
  intros Hall Hcodes Hempty Hdup.
  exists (select (duplicated_from [] codes) codes).
  split; [|split; [|split; [apply select_sublist|]]].
  2:{ destruct (select_duplicated_positions [] codes)
        as (rows & Hsorted & Hmem & Hvals).
      exists rows. split; [done|]. split; [|done].
      intros i. rewrite Hmem. split.
      - intros (v & Hi & [Hin%elem_of_nil|Hin]); [done|].
        apply elem_of_take in Hin as (j & Hj & Hlt). by exists j, v.
      - intros (j & v & Hlt & Hj & Hi). exists v. split; [done|]. right.
        apply elem_of_take. by exists j. }
  - assert (missing_columns df = []) as Hmiss.
    { apply missing_columns_nil. intros col Hin.
      apply getitem_is_Some. by apply Hall. }
    unfold validate_data. rewrite Hmiss, Hcodes.
    assert (any (isnull (ObjectSeries (Str (num:=num) <$> codes))) = false)
      as ->.
    { apply not_true_is_false. rewrite any_isnull. simpl.
      rewrite list_elem_of_fmap. by intros (t & ? & _). }
    assert (any (eq_scalar (ObjectSeries (Str (num:=num) <$> codes)) "")
            = false) as ->.
    { apply not_true_is_false. rewrite any_eq_scalar. simpl.
      rewrite list_elem_of_fmap. intros (t & [= <-] & Hin). done. }
    assert (any (duplicated (ObjectSeries (Str (num:=num) <$> codes)))
            = true) as ->.
    { apply not_false_iff_true. rewrite any_duplicated. simpl.
      by rewrite (NoDup_fmap Str). }
    simpl. unfold duplicated, join. simpl.
    change (@nil (cell num)) with (Str (num:=num) <$> []).
    rewrite (duplicated_from_fmap Str), select_fmap, str_items_fmap.
    done.
  - intros v.
    rewrite (count_select_duplicated string_dec [] codes v).
    by rewrite bool_decide_eq_false_2 by apply not_elem_of_nil.
Qed.

(** ** Check 4 and the accepting path *)

Lemma to_numeric_raise_coerce s :
  (forall c, c ∈ tolist s -> unparseable str_to_num c = false) ->
  to_numeric str_to_num ErrorsRaise s =
  to_numeric str_to_num ErrorsCoerce s.
Proof.
  destruct s as [vals|vals]; simpl; [done|]. intros Hok.
  destruct (existsb (unparseable str_to_num) vals) eqn:Hex; [|done].
  apply existsb_exists in Hex as (c & Hin & Hc).
  apply list_elem_of_In in Hin. rewrite (Hok c Hin) in Hc. done.
Qed.

(** C4: a dataset with all four columns, no missing or empty c_code, no
    repeated c_code, and price cells that are numbers, empty, or text that
    parses as a number, is accepted: [validate_data] returns
    [(True, "Data validation successful")], the frame keeps its length,
    and each price column is left as the strict conversion
    ([errors='raise']) of the original, so no price value is lost.  The
    dataset with zero records is one of them. *)
Theorem valid_dataset_accepted df codes :
  (forall col, col ∈ required_columns -> col ∈ columns df) ->
  getitem df "c_code" = Some codes ->
  Null ∉ tolist codes ->
  Str "" ∉ tolist codes ->
  NoDup (tolist codes) ->
  (forall col s,
      col ∈ price_columns -> getitem df col = Some s ->
      forall c, c ∈ tolist s -> unparseable str_to_num c = false) ->
  exists df',
    validate_data str_to_num df =
      (df', Returns true "Data validation successful") /\
    df_len df' = df_len df /\
    forall col,
      col ∈ price_columns ->
      getitem df' col =
      getitem df col ≫= to_numeric str_to_num ErrorsRaise.
Proof.
  intros Hall Hcodes Hnull Hempty Hnd Hprices.
  destruct (validate_data_ok df codes) as (df' & Hrun & Hlen & Hcols);
    try done.
  - apply missing_columns_nil. intros col Hin.
    apply getitem_is_Some. by apply Hall.
  - exists df'. split; [done|]. split; [done|]. intros col Hin.
    rewrite Hcols, bool_decide_eq_true_2 by done.
    destruct (getitem df col) as [s|] eqn:Hs; [simpl|done].
    symmetry. apply to_numeric_raise_coerce. by apply (Hprices col).
Qed.

(** C2: on a dataset that passes the column, non-empty and uniqueness
    checks, a price column of dtype object is replaced by its parse-or-null
    image: a non-empty text that does not parse becomes a missing value,
    [validate_data] still returns success, and the frame that [main] hands
    to [upload_to_bigquery] is the one holding that missing value. *)
Theorem unparseable_price_becomes_null df codes :
  (forall col, col ∈ required_columns -> col ∈ columns df) ->
  getitem df "c_code" = Some codes ->
  Null ∉ tolist codes ->
  Str "" ∉ tolist codes ->
  NoDup (tolist codes) ->
  exists df',
    validate_data str_to_num df =
      (df', Returns true "Data validation successful") /\
    (forall col vals,
        col ∈ price_columns ->
        getitem df col = Some (ObjectSeries vals) ->
        getitem df' col =
          Some (NumericSeries (coerce_cell str_to_num <$> vals)) /\
        forall i t,
          vals !! i = Some (Str t) -> t <> "" -> str_to_num t = None ->
          (coerce_cell str_to_num <$> vals) !! i = Some None /\
          row_at df' i !! col = Some Null) /\
    forall w,
      main str_to_num df true w =
      (let '(w', res) := upload_to_bigquery df' w in (w', Some res)).
Proof.
  intros Hall Hcodes Hnull Hempty Hnd.
  destruct (validate_data_ok df codes) as (df' & Hrun & Hlen & Hcols);
    try done.
  { apply missing_columns_nil. intros col Hin.
    apply getitem_is_Some. by apply Hall. }
  exists df'. split; [done|]. split.
  - intros col vals Hin Hvals.
    assert (getitem df' col =
            Some (NumericSeries (coerce_cell str_to_num <$> vals))) as Hnew.
    { by rewrite Hcols, bool_decide_eq_true_2, Hvals by done. }
    split; [done|]. intros i t Hi Hne Hparse.
    assert ((coerce_cell str_to_num <$> vals) !! i = Some None) as Hcell.
    { rewrite list_lookup_fmap, Hi. simpl.
      by rewrite bool_decide_eq_false_2, Hparse by done. }
    split; [done|].
    unfold row_at. rewrite lookup_omap. unfold getitem in Hnew.
    rewrite Hnew. simpl. by rewrite list_lookup_fmap, Hcell.
  - intros w. unfold main. by rewrite Hrun.
Qed.

(** ** Running the validator twice *)

(** C7: a second call of [validate_data], on the frame the first call left
    behind, ends as the first did: the same [(ok, message)], or the same
    exception. *)
Theorem validate_data_idempotent df :
  (validate_data str_to_num (validate_data str_to_num df).1).2 =
  (validate_data str_to_num df).2.
Proof.
  destruct (validate_data_cases df) as [(o & Hrun & _)|Hok].
  - rewrite Hrun. simpl. by rewrite Hrun.
  - destruct Hok as (codes & Hmiss & Hcodes & Hnull & Hempty & Hnd).
    destruct (validate_data_ok df codes) as (df' & Hrun & Hlen & Hcols);
      try done.
    rewrite Hrun. simpl.
    destruct (validate_data_ok df' codes) as (df'' & Hrun' & _);
      try done.
    + apply missing_columns_nil. intros col Hin. rewrite Hcols.
      destruct (proj1 (missing_columns_nil df) Hmiss col Hin) as [s Hs].
      rewrite Hs. destruct (bool_decide _); [simpl|by eexists].
      apply to_numeric_coerce_is_Some.
    + rewrite Hcols, bool_decide_eq_false_2; [done|].
      unfold price_columns. rewrite !elem_of_cons, elem_of_nil.
      intros [?|[?|[?|[]]]]; discriminate.
    + by rewrite Hrun'.
Qed.

(** ** What the validator may change *)

(** C8: [validate_data] leaves the number of records, the c_code column
    and every other column outside the three price columns as they were; a
    price column is either untouched or replaced by its parse-or-null
    image, which has the same length; and the frame that [main] uploads,
    when it uploads, is the frame [validate_data] left behind. *)
Theorem validate_data_frame df :
  let df' := (validate_data str_to_num df).1 in
  df_len df' = df_len df /\
  getitem df' "c_code" = getitem df "c_code" /\
  (forall col, col ∉ price_columns -> getitem df' col = getitem df col) /\
  (forall col,
      col ∈ price_columns ->
      getitem df' col =
      getitem df col ≫= to_numeric str_to_num ErrorsCoerce \/
      getitem df' col = getitem df col) /\
  (forall col,
      (fun s => length (tolist s)) <$> getitem df' col =
      (fun s => length (tolist s)) <$> getitem df col) /\
  length (rows_of df') = length (rows_of df) /\
  forall button w,
    main str_to_num df button w =
    match (validate_data str_to_num df).2 with
    | Returns true _ =>
        if button
        then let '(w', res) := upload_to_bigquery df' w in (w', Some res)
        else (w, None)
    | _ => (w, None)
    end.
Proof.
  assert ("c_code" ∉ price_columns) as Hcc.
  { unfold price_columns. rewrite !elem_of_cons, elem_of_nil.
    intros [?|[?|[?|[]]]]; discriminate. }
  assert (forall button w,
    main str_to_num df button w =
    match (validate_data str_to_num df).2 with
    | Returns true _ =>
        if button
        then let '(w', res) :=
               upload_to_bigquery (validate_data str_to_num df).1 w
             in (w', Some res)
        else (w, None)
    | _ => (w, None)
    end) as Hmain.
  { intros button w. unfold main.
    destruct (validate_data str_to_num df) as [d [[|] m|e]]; done. }
  destruct (validate_data_cases df) as [(o & Hrun & _)|Hok].
  - simpl. rewrite Hrun in *. simpl.
    repeat split; try done. intros col _. by right.
  - destruct Hok as (codes & Hmiss & Hcodes & Hnull & Hempty & Hnd).
    destruct (validate_data_ok df codes) as (df' & Hrun & Hlen & Hcols);
      try done.
    simpl. rewrite Hrun in *. simpl.
    split; [done|]. split.
    { by rewrite Hcols, bool_decide_eq_false_2. }
    split.
    { intros col Hnot. by rewrite Hcols, bool_decide_eq_false_2. }
    split.
    { intros col Hin. left. by rewrite Hcols, bool_decide_eq_true_2. }
    split.
    { intros col. rewrite Hcols.
      destruct (bool_decide _); [|done].
      destruct (getitem df col) as [s|]; [simpl|done].
      destruct (to_numeric_coerce_is_Some s) as [s' Hs'].
      rewrite Hs'. simpl. f_equal. by apply (to_numeric_length ErrorsCoerce). }
    split; [|done].
    unfold rows_of. by rewrite !length_fmap, Hlen.
Qed.

(** The failure exit of the price loop is dead: [pd.to_numeric] is called
    with [errors='coerce'], which does not raise, so no call of
    [validate_data] returns the message that names a price column. *)
Lemma price_failure_unreachable df col :
  (validate_data str_to_num df).2 <>
  Returns false
    ("Column " ++ col ++
     " contains non-numeric values that cannot be converted").
Proof.
  unfold validate_data.
  destruct (missing_columns df) as [|m ms] eqn:Hmiss; [|by intros [=]].
  destruct (getitem df "c_code") as [codes|]; [|by intros [=]].
  destruct (_ || _); [by intros [=]|].
  destruct (any (duplicated codes)).
  - destruct (join _ _); by intros [=].
  - destruct (normalize_prices_ok price_columns df) as (df' & -> & _).
    + intros c Hin. apply (proj1 (missing_columns_nil df) Hmiss).
      by apply price_columns_required.
    + by intros [=].
Qed.

End ValidatorFacts.


Section IngestorFacts.

Context {num : Type}.

Implicit Types (df : DataFrame num) (w : World num).

Lemma length_rows_of df : length (rows_of df) = df_len df.
Proof. unfold rows_of. by rewrite length_fmap, length_seq. Qed.

(** The decimal text of a count reads back as that count. *)
Lemma str_of_nat_reads_back (n : nat) :
  Nat.of_uint <$> NilEmpty.uint_of_string (str_of_nat n) = Some n.
Proof.
  unfold str_of_nat. rewrite NilEmpty.usu. simpl.
  by rewrite DecimalNat.Unsigned.of_to.
Qed.

(** ** Credentials *)

(** C9 (as the code has it): when both credential sources fail,
    [upload_to_bigquery] returns failure (it does not raise) and the world
    is as before: no load job was submitted and the table is untouched.  The
    message is the fixed "Error: No credentials found for BigQuery access"
    exactly when the sources are absent (KeyError or FileNotFoundError from
    the secret store, then FileNotFoundError from the file).  When the
    secret store fails in another way the message is
    "Error appending to BigQuery: " with the secret store's error text, and
    when the secret store is absent and the file fails in another way, with
    the file's error text. *)
Theorem no_credentials_rejected df w e1 t1 e2 t2 :
  secrets_credentials w = Failed e1 t1 ->
  file_credentials w = Failed e2 t2 ->
  exists message,
    upload_to_bigquery df w = (w, (false, message)) /\
    (message = "Error: No credentials found for BigQuery access" \/
     message = "Error appending to BigQuery: " ++ t1 \/
     message = "Error appending to BigQuery: " ++ t2) /\
    ((e1 = KeyError \/ e1 = FileNotFoundError) ->
     e2 = FileNotFoundError ->
     message = "Error: No credentials found for BigQuery access") /\
    ((e1 = KeyError \/ e1 = FileNotFoundError) ->
     e2 <> FileNotFoundError ->
     message = "Error appending to BigQuery: " ++ t2) /\
    (e1 <> KeyError ->
     e1 <> FileNotFoundError ->
     message = "Error appending to BigQuery: " ++ t1).
Proof.
  intros Hsecrets Hfile. unfold upload_to_bigquery, append_error.
  rewrite Hsecrets, Hfile.
  destruct e1, e2; eexists; (split; [reflexivity|]);
    (split; [auto|]);
    (split; [intros [?|?] ?; congruence|]);
    (split; [intros [?|?] ?; congruence|intros ? ?; congruence]).
Qed.

(** ** The bulk append *)

(** C10: when the resolution order yields credentials, the client is
    created and the store confirms the job, [upload_to_bigquery] submits
    exactly one load job, which carries the whole frame to the fixed table
    under the fixed four-field schema with WRITE_APPEND; it returns success
    with the frame's row count in the message; and the table afterwards is
    the old table followed by the frame's records, so it grew by that count
    and every row it held is still in its place. *)
Theorem upload_appends_dataset df w credentials :
  (secrets_credentials w = Got credentials \/
   exists e t,
     secrets_credentials w = Failed e t /\
     (e = KeyError \/ e = FileNotFoundError) /\
     file_credentials w = Got credentials) ->
  client_failure w credentials = None ->
  load_failure w (mkLoadJob df table_id upload_job_config) = None ->
  exists w',
    upload_to_bigquery df w =
      (w', (true, "Successfully uploaded " ++ str_of_nat (df_len df) ++
                  " rows to showroom_discount table")) /\
    Nat.of_uint <$> NilEmpty.uint_of_string (str_of_nat (df_len df)) =
      Some (df_len df) /\
    load_jobs w' =
      (load_jobs w ++ [mkLoadJob df table_id upload_job_config])%list /\
    upload_job_config =
      mkLoadJobConfig WRITE_APPEND
        [ mkSchemaField "c_code" "STRING" "REQUIRED";
          mkSchemaField "flash_price" "FLOAT64" "NULLABLE";
          mkSchemaField "consignment_price" "FLOAT64" "NULLABLE";
          mkSchemaField "speed_discount_price" "FLOAT64" "NULLABLE" ] /\
    table w' = (table w ++ rows_of df)%list /\
    length (table w') = (length (table w) + df_len df)%nat /\
    forall i r, table w !! i = Some r -> table w' !! i = Some r.
Proof.
  intros Hcred Hclient Hload.
  assert (upload_to_bigquery df w = load_with credentials df w) as ->.
  { unfold upload_to_bigquery.
    destruct Hcred as [->|(e & t & -> & He & ->)]; [done|].
    by destruct He as [->| ->]. }
  unfold load_with. rewrite Hclient, Hload.
  eexists. split; [reflexivity|]. simpl.
  split; [apply str_of_nat_reads_back|].
  split; [done|]. split; [done|]. split; [done|].
  split.
  - by rewrite length_app, length_rows_of.
  - intros i r Hi. rewrite lookup_app_l; [done|].
    by apply lookup_lt_Some in Hi.
Qed.

End IngestorFacts.


(** * The scenarios *)

(** C1 at Scenario D: the text "abc" in flash_price does not make
    [validate_data] fail.  The call returns success and leaves a missing
    value where the text was, although the strict conversion of that column
    raises. *)
Theorem scenario_D_accepted :
  (validate_data parse_digits scenario_D).2 =
    Returns true "Data validation successful" /\
  getitem (validate_data parse_digits scenario_D).1 "flash_price" =
    Some (NumericSeries [None]) /\
  to_numeric parse_digits ErrorsRaise (ObjectSeries [Str "abc"]) = None.
Proof. repeat split; by vm_compute. Qed.

(** C3 at a code that occurs three times: the message lists it twice, not
    once. *)
Lemma triple_c_code_listed_twice :
  getitem scenario_triple "c_code" =
    Some (ObjectSeries [Str "c-001"; Str "c-002"; Str "c-001"; Str "c-001"]) /\
  (validate_data parse_digits scenario_triple).2 =
    Returns false "Duplicate c_code values found: c-001, c-001" /\
  (validate_data parse_digits scenario_triple).2 <>
    Returns false "Duplicate c_code values found: c-001".
Proof.
  split; [by vm_compute|]. split; [by vm_compute|].
  vm_compute. intros [=].
Qed.

(** The listed duplicates follow the rows, not the first appearances: in
    a, b, b, a, c the second b comes before the second a. *)
Example duplicates_in_row_order :
  select (duplicated_from [] ["a"; "b"; "b"; "a"; "c"])
         ["a"; "b"; "b"; "a"; "c"] = ["b"; "a"].
Proof. by vm_compute. Qed.

(** C9 with no secret configured and a credential file that holds no JSON:
    no credentials can be had from either source, and the message is the
    parse error of the file behind "Error appending to BigQuery: ", not a
    message about credentials. *)
Lemma garbage_credential_file_message :
  secrets_credentials world_with_garbage_file =
    Failed KeyError "'service_account'" /\
  file_credentials world_with_garbage_file =
    Failed OtherException "Expecting value: line 1 column 1 (char 0)" /\
  upload_to_bigquery scenario_A world_with_garbage_file =
    (world_with_garbage_file,
     (false,
      "Error appending to BigQuery: Expecting value: line 1 column 1 (char 0)")) /\
  (upload_to_bigquery scenario_A world_with_garbage_file).2.2 <>
    "Error: No credentials found for BigQuery access".
Proof.
  split; [done|]. split; [done|]. split; [done|].
  vm_compute. intros [=].
Qed.

(** C6 on a dataset that lacks two price columns (and has a missing c_code
    besides): both missing names are reported, in the order of the required
    list. *)
Lemma missing_column_rejected_witness :
  validate_data parse_digits two_columns =
    (two_columns,
     Returns false
       "Missing required columns: flash_price, speed_discount_price").
Proof.
  destruct (missing_column_rejected parse_digits two_columns) as [Hrun _].
  { exists "flash_price". split; by_compute. }
  rewrite Hrun. by vm_compute.
Defined.

(** C5 on Scenario C: the empty c_code is reported, not the repeated code
    and not the price that is no number. *)
Lemma empty_c_code_rejected_witness :
  validate_data parse_digits scenario_C =
    (scenario_C, Returns false "c_code column cannot have empty values").
Proof.
  apply (empty_c_code_rejected parse_digits scenario_C
           (ObjectSeries [Str ""; Str "c-001"; Str "c-001"])).
  - all_required.
  - by vm_compute.
  - right. by_compute.
Defined.

(** C3 on the code that occurs three times. *)
Lemma duplicate_c_code_rejected_witness :
  exists listed : list string,
    validate_data parse_digits scenario_triple =
      (scenario_triple,
       Returns false
         ("Duplicate c_code values found: " ++ String.concat ", " listed)) /\
    (exists rows : list nat,
        StronglySorted lt rows /\
        (forall i,
            i ∈ rows <->
            exists j v,
              (j < i)%nat /\
              ["c-001"; "c-002"; "c-001"; "c-001"] !! j = Some v /\
              ["c-001"; "c-002"; "c-001"; "c-001"] !! i = Some v) /\
        Forall2
          (fun i v => ["c-001"; "c-002"; "c-001"; "c-001"] !! i = Some v)
          rows listed) /\
    sublist listed ["c-001"; "c-002"; "c-001"; "c-001"] /\
    forall v,
      count_occ string_dec listed v =
      (count_occ string_dec ["c-001"; "c-002"; "c-001"; "c-001"] v - 1)%nat.
Proof.
  apply (duplicate_c_code_rejected parse_digits scenario_triple
           ["c-001"; "c-002"; "c-001"; "c-001"]).
  - all_required.
  - by vm_compute.
  - by_compute.
  - by_compute.
Defined.

(** C4 on Scenario A. *)
Lemma valid_dataset_accepted_witness :
  exists df',
    validate_data parse_digits scenario_A =
      (df', Returns true "Data validation successful") /\
    df_len df' = 2%nat /\
    getitem df' "flash_price" =
      Some (NumericSeries [Some 25000%Z; Some 30000%Z]) /\
    getitem df' "consignment_price" =
      Some (NumericSeries [Some 27000%Z; None]).
Proof.
  destruct (valid_dataset_accepted parse_digits scenario_A
              (ObjectSeries [Str "c-001"; Str "c-002"]))
    as (df' & Hrun & Hlen & Hcols).
  - all_required.
  - by vm_compute.
  - by_compute.
  - by_compute.
  - by_compute.
  - intros col s Hin. unfold price_columns in Hin.
    rewrite !elem_of_cons, elem_of_nil in Hin.
    destruct Hin as [->|[->|[->|[]]]]; intros Hs; vm_compute in Hs;
      injection Hs as <-; apply Forall_forall; by_compute.
  - exists df'. split; [done|]. split; [done|]. split.
    + rewrite Hcols by by_compute. by vm_compute.
    + rewrite Hcols by by_compute. by vm_compute.
Defined.

(** C2 on Scenario D: the record goes on to the upload with a missing
    flash_price. *)
Lemma unparseable_price_becomes_null_witness :
  (validate_data parse_digits scenario_D).2 =
    Returns true "Data validation successful" /\
  row_at (validate_data parse_digits scenario_D).1 0 !! "flash_price" =
    Some Null.
Proof.
  destruct (unparseable_price_becomes_null parse_digits scenario_D
              (ObjectSeries [Str "c-001"]))
    as (df' & Hrun & Hcols & _).
  - all_required.
  - by vm_compute.
  - by_compute.
  - by_compute.
  - by_compute.
  - rewrite Hrun. simpl. split; [done|].
    destruct (Hcols "flash_price" [Str "abc"]) as [_ Hcell].
    + by_compute.
    + by vm_compute.
    + by apply (Hcell 0%nat "abc").
Defined.

(** C9 on Scenario E. *)
Lemma no_credentials_rejected_witness :
  upload_to_bigquery scenario_A world_without_credentials =
    (world_without_credentials,
     (false, "Error: No credentials found for BigQuery access")).
Proof.
  destruct (no_credentials_rejected scenario_A world_without_credentials
              KeyError "'service_account'" FileNotFoundError
              "[Errno 2] No such file or directory: 'service_account.json'")
    as (message & Hrun & _ & Hfixed & _); [done|done|].
  rewrite Hrun, Hfixed; [done|by left|done].
Defined.

(** C10 on Scenario A after validation, with credentials from the file: one
    job, two rows appended behind the one the table held. *)
Lemma upload_appends_dataset_witness :
  exists w',
    upload_to_bigquery (validate_data parse_digits scenario_A).1
      world_with_file =
      (w', (true, "Successfully uploaded 2 rows to showroom_discount table")) /\
    length (load_jobs w') = 1%nat /\
    length (table w') = 3%nat /\
    table w' !! 0%nat = Some earlier_row.
Proof.
  destruct (upload_appends_dataset (validate_data parse_digits scenario_A).1
              world_with_file
              (ServiceAccount "uploader@pricing-338819.iam.gserviceaccount.com"))
    as (w' & Hrun & _ & Hjobs & _ & Htable & Hlen & Hold).
  - right. exists FileNotFoundError, "No secrets files found".
    split; [done|]. split; [by right|done].
  - done.
  - done.
  - exists w'. split; [|split; [|split]].
    + rewrite Hrun. by vm_compute.
    + by rewrite Hjobs.
    + rewrite Hlen. by vm_compute.
    + by apply Hold.
Defined.

(** The dataset with zero records passes validation, and its upload reports
    zero rows. *)
Example no_records_accepted :
  (validate_data parse_digits no_records).2 =
    Returns true "Data validation successful" /\
  (upload_to_bigquery (validate_data parse_digits no_records).1
     world_with_file).2 =
    (true, "Successfully uploaded 0 rows to showroom_discount table").
Proof. split; by vm_compute. Qed.

(** A repeated c_code that is a number, not text: the comma-join of the
    duplicates raises TypeError, which [validate_data] does not handle. *)
Example numeric_codes_raise :
  validate_data parse_digits numeric_codes = (numeric_codes, Raises TypeError).
Proof. by vm_compute. Qed.

(** In Scenario E the upload button leaves the store as it was. *)
Example scenario_E_main :
  main parse_digits scenario_A true world_without_credentials =
    (world_without_credentials,
     Some (false, "Error: No credentials found for BigQuery access")).
Proof. by vm_compute. Qed.


(** * Further properties of the validator *)

Section ValidatorMore.

Context {num : Type} {num_eq_dec : EqDecision num}.
Variable str_to_num : string -> option num.

Implicit Types (df : DataFrame num) (s : Series num) (col : string).

Lemma required_present df :
  missing_columns df = [] <->
  forall col, col ∈ required_columns -> col ∈ columns df.
Proof.
  rewrite (missing_columns_nil str_to_num).
  split; intros Hall col Hin; apply getitem_is_Some, Hall, Hin.
Qed.

Lemma c_code_not_price : "c_code" ∉ price_columns.
Proof.
  unfold price_columns. rewrite !elem_of_cons, elem_of_nil.
  intros [?|[?|[?|[]]]]; discriminate.
Qed.

(** Every path but the accepting one leaves the frame alone and does not
    return [ok = True]. *)
Lemma validate_data_paths df :
  (exists o, validate_data str_to_num df = (df, o) /\
             forall msg, o <> Returns true msg) \/
  (exists codes,
      missing_columns df = [] /\
      getitem df "c_code" = Some codes /\
      (Null ∉ tolist codes) /\ (Str "" ∉ tolist codes) /\
      NoDup (tolist codes)).
Proof.
  unfold validate_data.
  destruct (missing_columns df) as [|m ms] eqn:Hmiss;
    [|left; eexists; by split].
  destruct (getitem df "c_code") as [codes|] eqn:Hcodes;
    [|left; eexists; by split].
  destruct (any (isnull codes)) eqn:Hnull; [left; eexists; by split|].
  destruct (any (eq_scalar codes "")) eqn:Hempty;
    [left; eexists; by split|].
  destruct (any (duplicated codes)) eqn:Hdup.
  - left. simpl. destruct (join _ _); eexists; by split.
  - right. exists codes. repeat split; try done.
    + rewrite <- any_isnull. congruence.
    + rewrite <- any_eq_scalar. congruence.
    + by apply any_duplicated.
Qed.

(** What an accepting call tells about the frame it was given and about the
    frame it leaves. *)
Lemma validate_success_inv df df' msg :
  validate_data str_to_num df = (df', Returns true msg) ->
  msg = "Data validation successful" /\
  df_len df' = df_len df /\
  missing_columns df = [] /\
  (exists codes,
      getitem df "c_code" = Some codes /\
      (Null ∉ tolist codes) /\ (Str "" ∉ tolist codes) /\
      NoDup (tolist codes)) /\
  forall col,
    getitem df' col =
    if bool_decide (col ∈ price_columns)
    then getitem df col ≫= to_numeric str_to_num ErrorsCoerce
    else getitem df col.
Proof.
  intros Hrun.
  destruct (validate_data_paths df) as [(o & Hrun' & Hno)|Hok].
  - rewrite Hrun' in Hrun. injection Hrun as _ ->. by destruct (Hno msg).
  - destruct Hok as (codes & Hmiss & Hcodes & Hnull & Hempty & Hnd).
    destruct (validate_data_ok str_to_num df codes)
      as (df2 & Hrun2 & Hlen & Hcols); try done.
    rewrite Hrun2 in Hrun. injection Hrun as -> <-.
    split; [done|]. split; [done|]. split; [done|]. split; [|done].
    by exists codes.
Qed.

(** ** When the validator accepts *)

(** X1: [validate_data] returns [ok = True] exactly when the four required
    columns are present, no c_code is missing or the empty string, and no
    c_code is repeated; what the price columns hold plays no part. *)
Theorem validate_success_iff df :
  (exists df' msg, validate_data str_to_num df = (df', Returns true msg)) <->
  (forall col, col ∈ required_columns -> col ∈ columns df) /\
  exists codes,
    getitem df "c_code" = Some codes /\
    (Null ∉ tolist codes) /\ (Str "" ∉ tolist codes) /\
    NoDup (tolist codes).
Proof.
  split.
  - intros (df' & msg & Hrun).
    destruct (validate_success_inv df df' msg Hrun)
      as (_ & _ & Hmiss & Hcodes & _).
    split; [by apply required_present|done].
  - intros (Hall & codes & Hcodes & Hnull & Hempty & Hnd).
    destruct (validate_data_ok str_to_num df codes)
      as (df' & Hrun & _); try done.
    + by apply required_present.
    + by exists df', "Data validation successful".
Qed.

(** X2: a call that does not return [ok = True] (it returns failure, or it
    raises) has not assigned to any column: the frame is as it was. *)
Theorem validate_failure_keeps_frame df :
  (forall msg, (validate_data str_to_num df).2 <> Returns true msg) ->
  (validate_data str_to_num df).1 = df.
Proof.
  intros Hfail.
  destruct (validate_data_paths df) as [(o & Hrun & _)|Hok].
  - by rewrite Hrun.
  - destruct Hok as (codes & Hmiss & Hcodes & Hnull & Hempty & Hnd).
    destruct (validate_data_ok str_to_num df codes)
      as (df' & Hrun & _); try done.
    rewrite Hrun in Hfail. by destruct (Hfail "Data validation successful").
Qed.

(** X3: the frame left by an accepting call still has the four required
    columns, its three price columns are of a numeric dtype, so no record
    carries text in a price field, and the c_code fields of its records are
    neither missing nor empty and pairwise distinct. *)
Theorem validated_frame_is_clean df df' msg :
  validate_data str_to_num df = (df', Returns true msg) ->
  (forall col, col ∈ required_columns -> col ∈ columns df') /\
  (forall col,
      col ∈ price_columns ->
      exists vals, getitem df' col = Some (NumericSeries vals)) /\
  (forall col i c t,
      col ∈ price_columns -> row_at df' i !! col = Some c -> c <> Str t) /\
  (forall i c,
      row_at df' i !! "c_code" = Some c -> c <> Null /\ c <> Str "") /\
  (forall i j c,
      row_at df' i !! "c_code" = Some c ->
      row_at df' j !! "c_code" = Some c -> i = j).
Proof.
  intros Hrun.
  destruct (validate_success_inv df df' msg Hrun)
    as (_ & _ & Hmiss & (codes & Hcodes & Hnull & Hempty & Hnd) & Hcols).
  assert (forall col, col ∈ required_columns ->
                      is_Some (getitem df col)) as Hpresent.
  { by apply (missing_columns_nil str_to_num). }
  assert (forall col, col ∈ price_columns ->
            exists vals, getitem df' col = Some (NumericSeries vals))
    as Hnumeric.
  { intros col Hin. rewrite Hcols, bool_decide_eq_true_2 by done.
    destruct (Hpresent col) as [s Hs]; [by apply price_columns_required|].
    rewrite Hs. simpl. destruct s; simpl; by eexists. }
  assert (getitem df' "c_code" = Some codes) as Hcodes'.
  { rewrite Hcols, bool_decide_eq_false_2; [done|apply c_code_not_price]. }
  assert (forall i c, row_at df' i !! "c_code" = Some c ->
                      tolist codes !! i = Some c) as Hrow.
  { intros i c. unfold row_at. rewrite lookup_omap.
    unfold getitem in Hcodes'. by rewrite Hcodes'. }
  split; [|split; [done|split; [|split]]].
  - intros col Hin. apply getitem_is_Some. rewrite Hcols.
    destruct (Hpresent col Hin) as [s Hs]. rewrite Hs.
    destruct (bool_decide _); [simpl|by eexists].
    apply to_numeric_coerce_is_Some.
  - intros col i c t Hin. destruct (Hnumeric col Hin) as [vals Hvals].
    unfold row_at. rewrite lookup_omap. unfold getitem in Hvals.
    rewrite Hvals. simpl. rewrite list_lookup_fmap.
    destruct (vals !! i) as [[x|]|]; simpl; intros [= <-]; discriminate.
  - intros i c Hc. apply Hrow, list_elem_of_lookup_2 in Hc.
    split; intros ->; done.
  - intros i j c Hi Hj.
    by apply (NoDup_lookup (tolist codes) i j c); [|apply Hrow..].
Qed.

(** X4: validating again does not change the frame any further: the frame
    a call leaves behind is left as it is by the next call. *)
Theorem validate_frame_fixpoint df :
  (validate_data str_to_num (validate_data str_to_num df).1).1 =
  (validate_data str_to_num df).1.
Proof.
  destruct (validate_data_paths df) as [(o & Hrun & _)|Hok].
  - rewrite Hrun. simpl. by rewrite Hrun.
  - destruct Hok as (codes & Hmiss & Hcodes & Hnull & Hempty & Hnd).
    destruct (validate_data_ok str_to_num df codes)
      as (df' & Hrun & Hlen & Hcols); try done.
    rewrite Hrun. simpl.
    assert (forall col, col ∈ required_columns ->
                        is_Some (getitem df col)) as Hpresent.
    { by apply (missing_columns_nil str_to_num). }
    destruct (validate_data_ok str_to_num df' codes)
      as (df'' & Hrun' & Hlen' & Hcols'); try done.
    + apply (missing_columns_nil str_to_num). intros col Hin. rewrite Hcols.
      destruct (Hpresent col Hin) as [s Hs].
      rewrite Hs. destruct (bool_decide _); [simpl|by eexists].
      apply to_numeric_coerce_is_Some.
    + rewrite Hcols, bool_decide_eq_false_2; [done|apply c_code_not_price].
    + rewrite Hrun'. simpl.
      destruct df' as [n' m'], df'' as [n'' m'']. simpl in *.
      f_equal; [done|]. apply map_eq. intros col.
      specialize (Hcols' col). specialize (Hcols col).
      unfold getitem in *. simpl in *. rewrite Hcols'.
      destruct (bool_decide (col ∈ price_columns)); [|done].
      rewrite Hcols. destruct (df_data df !! col) as [s|]; [simpl|done].
      destruct (to_numeric_coerce_is_Some str_to_num s) as [s' Hs'].
      rewrite Hs'. simpl. by apply (to_numeric_coerce_idem str_to_num s).
Qed.

(** ** When the validator raises, and what it says when it fails *)

Lemma elem_of_select_any {A : Type} (mask : list bool) (l : list A) (x : A) :
  x ∈ select mask l -> any mask = true.
Proof.
  revert l. induction mask as [|b mask IH]; intros [|y l]; simpl;
    try (by intros ?%elem_of_nil).
  destruct b; [done|]. intros Hin. unfold any in *. simpl. by apply (IH l).
Qed.

Lemma any_select_nonempty {A : Type} `{EqDecision A} (seen l : list A) :
  any (duplicated_from seen l) = true ->
  select (duplicated_from seen l) l <> [].
Proof.
  revert seen. induction l as [|x l IH]; intros seen; simpl; [done|].
  destruct (bool_decide (x ∈ seen)); [done|].
  unfold any in *. simpl. apply IH.
Qed.

Lemma str_items_None (items : list (cell num)) :
  str_items items = None <->
  exists c, c ∈ items /\ forall t, c <> Str t.
Proof.
  induction items as [|c items IH]; simpl.
  - split; [done|]. by intros (c & ?%elem_of_nil & _).
  - destruct c as [|t|x].
    + split; [|done]. intros _. exists Null. split; [by left|done].
    + rewrite fmap_None, IH. split.
      * intros (c & Hin & Hc). exists c. split; [by right|done].
      * intros (c & [->|Hin]%elem_of_cons & Hc); [by destruct (Hc t)|].
        by exists c.
    + split; [|done]. intros _. exists (Num x). split; [by left|done].
Qed.

(** A value is among the listed duplicates exactly when it occurs at least
    twice. *)
Lemma elem_of_select_duplicated {A : Type} `{EqDecision A}
    (dec : forall x y : A, {x = y} + {x <> y}) (l : list A) (v : A) :
  v ∈ select (duplicated_from [] l) l <-> (2 <= count_occ dec l v)%nat.
Proof.
  rewrite list_elem_of_In, (count_occ_In dec).
  rewrite (count_select_duplicated dec [] l v).
  rewrite bool_decide_eq_false_2 by apply not_elem_of_nil. lia.
Qed.

(** X5: the only exception [validate_data] raises is the TypeError of the
    comma-join, and it raises it exactly when the columns are present, no
    c_code is missing or empty, and some number (a c_code that is not text)
    occurs at least twice in the c_code column. *)
Theorem validate_raises_iff df e :
  (validate_data str_to_num df).2 = Raises e <->
  e = TypeError /\
  (forall col, col ∈ required_columns -> col ∈ columns df) /\
  exists codes,
    getitem df "c_code" = Some codes /\
    (Null ∉ tolist codes) /\ (Str "" ∉ tolist codes) /\
    exists x, (2 <= count_occ cell_eq_dec (tolist codes) (Num x))%nat.
Proof.
  unfold validate_data.
  destruct (missing_columns df) as [|m ms] eqn:Hmiss.
  2:{ split; [done|]. intros (_ & Hall & _).
      apply required_present in Hall. congruence. }
  pose proof (proj1 (required_present df) Hmiss) as Hall.
  destruct (getitem df "c_code") as [codes|] eqn:Hcodes.
  2:{ simpl. split; [|by intros (_ & _ & codes & [=] & _)].
      intros _.
      assert (is_Some (getitem df "c_code")) as [s Hs]
        by (apply getitem_is_Some, Hall; by left).
      congruence. }
  destruct (any (isnull codes)) eqn:Hnull.
  { simpl. split; [done|]. intros (_ & _ & codes' & [= <-] & Hn & _).
    by apply any_isnull in Hnull. }
  destruct (any (eq_scalar codes "")) eqn:Hempty.
  { simpl. split; [done|]. intros (_ & _ & codes' & [= <-] & _ & Hn & _).
    by apply any_eq_scalar in Hempty. }
  assert (Null ∉ tolist codes) as Hnonull
    by (rewrite <- any_isnull; congruence).
  assert (Str "" ∉ tolist codes) as Hnoempty
    by (rewrite <- any_eq_scalar; congruence).
  cbn [orb]. unfold join, duplicated.
  destruct (any (duplicated_from [] (tolist codes))) eqn:Hdup.
  - destruct (str_items _) as [strs|] eqn:Hitems; simpl.
    + split; [done|].
      intros (_ & _ & codes' & [= <-] & _ & _ & x & Hx).
      apply (elem_of_select_duplicated cell_eq_dec) in Hx.
      assert (str_items (select (duplicated_from [] (tolist codes))
                                (tolist codes)) = None) as Hnone.
      { apply str_items_None. by exists (Num x). }
      congruence.
    + split.
      * intros [= <-]. split; [done|]. split; [done|].
        exists codes. split; [done|]. split; [done|]. split; [done|].
        apply str_items_None in Hitems as (c & Hin & Hc).
        destruct c as [|t|x].
        -- destruct Hnonull.
           apply (elem_of_sublist _ _ _ Hin), select_sublist.
        -- by destruct (Hc t).
        -- exists x. by apply (elem_of_select_duplicated cell_eq_dec).
      * by intros (-> & _).
  - destruct (normalize_prices_ok str_to_num price_columns df)
      as (df' & -> & _).
    { intros col Hin. apply getitem_is_Some, Hall.
      by apply price_columns_required. }
    simpl. split; [done|].
    intros (_ & _ & codes' & [= <-] & _ & _ & x & Hx).
    apply (elem_of_select_duplicated cell_eq_dec) in Hx.
    apply elem_of_select_any in Hx. congruence.
Qed.

(** X6: a failure that [validate_data] returns carries one of three
    messages: the missing required columns, the fixed text about empty
    c_code values, or the list of duplicates.  No other text is returned
    with [ok = False], whatever the dataset. *)
Theorem validate_failure_messages df msg :
  (validate_data str_to_num df).2 = Returns false msg ->
  (missing_columns df <> [] /\
   msg = "Missing required columns: " ++
         String.concat ", " (missing_columns df)) \/
  msg = "c_code column cannot have empty values" \/
  exists listed : list string,
    listed <> [] /\
    msg = "Duplicate c_code values found: " ++ String.concat ", " listed.
Proof.
  unfold validate_data.
  destruct (missing_columns df) as [|m ms] eqn:Hmiss.
  2:{ simpl. intros [= <-]. by left. }
  destruct (getitem df "c_code") as [codes|] eqn:Hcodes; [|done].
  destruct (_ || _); [simpl; intros [= <-]; right; by left|].
  unfold join, duplicated.
  destruct (any (duplicated_from [] (tolist codes))) eqn:Hdup.
  - apply any_select_nonempty in Hdup.
    destruct (str_items _) as [strs|] eqn:Hitems; simpl; [|done].
    intros [= <-]. right. right. exists strs. split; [|done].
    intros ->. destruct (select _ _) as [|[|t|x] sel]; try done.
    simpl in Hitems. by destruct (str_items sel).
  - destruct (normalize_prices_ok str_to_num price_columns df)
      as (df' & -> & _); [|done].
    intros col Hin.
    apply (proj1 (missing_columns_nil str_to_num df) Hmiss).
    by apply price_columns_required.
Qed.

End ValidatorMore.

(** * Further properties of the ingestor and of the upload path *)

Section IngestorMore.

Context {num : Type} {num_eq_dec : EqDecision num}.
Variable str_to_num : string -> option num.

Implicit Types (df : DataFrame num) (w : World num).

(** What one call can do to the world: nothing; record a job that the store
    turns down, with whatever the store wrote of it; or record a job and
    append the frame's records. *)
Lemma upload_world df w :
  let job := mkLoadJob df table_id upload_job_config in
  let w' := (upload_to_bigquery df w).1 in
  (upload_to_bigquery df w).2.1 = false /\ w' = w \/
  (upload_to_bigquery df w).2.1 = false /\
    table w' = (table w ++ partial_rows w job)%list /\
    load_jobs w' = (load_jobs w ++ [job])%list \/
  (upload_to_bigquery df w).2.1 = true /\
    table w' = (table w ++ rows_of df)%list /\
    load_jobs w' = (load_jobs w ++ [job])%list.
Proof.
  assert (forall c,
    let job := mkLoadJob df table_id upload_job_config in
    let w' := (load_with c df w).1 in
    (load_with c df w).2.1 = false /\ w' = w \/
    (load_with c df w).2.1 = false /\
      table w' = (table w ++ partial_rows w job)%list /\
      load_jobs w' = (load_jobs w ++ [job])%list \/
    (load_with c df w).2.1 = true /\
      table w' = (table w ++ rows_of df)%list /\
      load_jobs w' = (load_jobs w ++ [job])%list) as Hload.
  { intros c. unfold load_with.
    destruct (client_failure w c); simpl; [by left|].
    destruct (load_failure w _); simpl; [right; by left|right; by right]. }
  unfold upload_to_bigquery.
  destruct (secrets_credentials w) as [c|[] t] eqn:Hs; try apply Hload;
    try (simpl; by left);
    destruct (file_credentials w) as [c|[] t'] eqn:Hf; try apply Hload;
    simpl; by left.
Qed.

(** A successful call has found credentials along the resolution order,
    created the client and had its job confirmed. *)
Lemma upload_ok_inv df w :
  (upload_to_bigquery df w).2.1 = true ->
  exists credentials,
    (secrets_credentials w = Got credentials \/
     exists e t,
       secrets_credentials w = Failed e t /\
       (e = KeyError \/ e = FileNotFoundError) /\
       file_credentials w = Got credentials) /\
    client_failure w credentials = None /\
    load_failure w (mkLoadJob df table_id upload_job_config) = None.
Proof.
  assert (forall c,
    (load_with c df w).2.1 = true ->
    client_failure w c = None /\
    load_failure w (mkLoadJob df table_id upload_job_config) = None)
    as Hload.
  { intros c. unfold load_with.
    destruct (client_failure w c); simpl; [done|].
    by destruct (load_failure w _). }
  unfold upload_to_bigquery.
  destruct (secrets_credentials w) as [c|e t] eqn:Hs.
  - intros [Hc Hl]%Hload. exists c. by auto.
  - destruct e; try done;
      (destruct (file_credentials w) as [c|[] t'] eqn:Hf; try done;
       intros [Hc Hl]%Hload; exists c;
       split; [right; do 2 eexists; by auto|done]).
Qed.

(** ** What the ingestor never does *)

(** X7: whatever the credentials and the store do, one call of
    [upload_to_bigquery] submits at most one load job, that job carries the
    frame it was given under WRITE_APPEND, and every row the table held is
    still there, at its place, afterwards. *)
Theorem upload_append_only df w :
  let w' := (upload_to_bigquery df w).1 in
  (load_jobs w' = load_jobs w \/
   load_jobs w' =
     (load_jobs w ++ [mkLoadJob df table_id upload_job_config])%list) /\
  write_disposition upload_job_config = WRITE_APPEND /\
  (exists new, table w' = (table w ++ new)%list) /\
  forall i r, table w !! i = Some r -> table w' !! i = Some r.
Proof.
  assert (forall new i r,
    table w !! i = Some r -> (table w ++ new)%list !! i = Some r) as Hkeep.
  { intros new i r Hi. rewrite lookup_app_l; [done|].
    by apply lookup_lt_Some in Hi. }
  destruct (upload_world df w)
    as [(_ & Hw)|[(_ & Ht & Hj)|(_ & Ht & Hj)]]; simpl in *.
  - rewrite Hw. split; [by left|]. split; [done|]. split; [|done].
    exists []. by rewrite app_nil_r.
  - split; [by right|]. split; [done|]. rewrite Ht.
    split; [by eexists|apply Hkeep].
  - split; [by right|]. split; [done|]. rewrite Ht.
    split; [by eexists|apply Hkeep].
Qed.

(** X8: [upload_to_bigquery] returns [ok = True] exactly when the
    resolution order yields credentials (from the secret store, or from the
    file after the secret store answered KeyError or FileNotFoundError), the
    client is created with them, and the store confirms the job. *)
Theorem upload_success_iff df w :
  (upload_to_bigquery df w).2.1 = true <->
  exists credentials,
    (secrets_credentials w = Got credentials \/
     exists e t,
       secrets_credentials w = Failed e t /\
       (e = KeyError \/ e = FileNotFoundError) /\
       file_credentials w = Got credentials) /\
    client_failure w credentials = None /\
    load_failure w (mkLoadJob df table_id upload_job_config) = None.
Proof.
  split; [apply upload_ok_inv|].
  intros (c & Hres & Hc & Hl).
  assert ((load_with c df w).2.1 = true) as Hload.
  { unfold load_with. by rewrite Hc, Hl. }
  unfold upload_to_bigquery.
  destruct Hres as [->|(e & t & -> & [-> | ->] & ->)]; done.
Qed.


(** X10: a secret store that fails in any other way than KeyError or
    FileNotFoundError ends the call at once with that error's text: the
    credential file is not consulted, whatever it holds, and nothing is
    submitted. *)
Theorem secret_error_blocks_file df w e text :
  secrets_credentials w = Failed e text ->
  e <> KeyError ->
  e <> FileNotFoundError ->
  upload_to_bigquery df w =
    (w, (false, "Error appending to BigQuery: " ++ text)).
Proof.
  intros Hs Hk Hf. unfold upload_to_bigquery, append_error. rewrite Hs.
  by destruct e.
Qed.

(** X11: there is no guard against a repeated upload.  Take a successful
    call, and a later call with the same frame that meets the store as the
    first call left it, under whatever answers the surroundings then give:
    if that call succeeds too, it has submitted a second job with the same
    frame, and the table holds the frame's records twice behind its old
    rows. *)
Theorem upload_twice_appends_twice df w w1 :
  (upload_to_bigquery df w).2.1 = true ->
  table w1 = table (upload_to_bigquery df w).1 ->
  load_jobs w1 = load_jobs (upload_to_bigquery df w).1 ->
  (upload_to_bigquery df w1).2.1 = true ->
  let w2 := (upload_to_bigquery df w1).1 in
  table w2 = (table w ++ rows_of df ++ rows_of df)%list /\
  length (table w2) = (length (table w) + 2 * df_len df)%nat /\
  load_jobs w2 =
    (load_jobs w ++ [mkLoadJob df table_id upload_job_config;
                     mkLoadJob df table_id upload_job_config])%list.
Proof.
  intros Hok Htable Hjobs Hok2.
  destruct (upload_world df w)
    as [(Hno & _)|[(Hno & _)|(_ & Ht & Hj)]]; simpl in *;
    [congruence..|].
  destruct (upload_world df w1)
    as [(Hno & _)|[(Hno & _)|(_ & Ht2 & Hj2)]]; simpl in *;
    [congruence..|].
  rewrite Ht2, Hj2, Htable, Hjobs, Ht, Hj, <- !app_assoc.
  split; [done|]. split; [|done].
  rewrite !length_app. unfold rows_of. rewrite !length_fmap, !length_seq.
  lia.
Qed.

(** ** The upload path of [main] *)

(** X12: [main] changes the world only through an upload of a frame that
    [validate_data] has accepted: unless the button is pressed and the
    validation returned success, the world is left as it was; and a job that
    it submits carries the frame left by the validation, whose price columns
    are of a numeric dtype. *)
Theorem main_uploads_only_validated df button w :
  let w' := (main str_to_num df button w).1 in
  w' = w /\ (main str_to_num df button w).2 = None \/
  button = true /\
  exists df',
    validate_data str_to_num df =
      (df', Returns true "Data validation successful") /\
    main str_to_num df button w =
      ((upload_to_bigquery df' w).1, Some (upload_to_bigquery df' w).2) /\
    (load_jobs w' = load_jobs w \/
     load_jobs w' =
       (load_jobs w ++ [mkLoadJob df' table_id upload_job_config])%list) /\
    forall col,
      col ∈ price_columns ->
      exists vals, getitem df' col = Some (NumericSeries vals).
Proof.
  unfold main.
  destruct (validate_data str_to_num df) as [df' [[|] msg|e]] eqn:Hrun;
    [|by left..].
  destruct button; [|by left]. right. split; [done|].
  destruct (validate_success_inv str_to_num df df' msg Hrun)
    as (-> & _ & Hmiss & _ & Hcols).
  exists df'. split; [done|].
  destruct (upload_to_bigquery df' w) as [w1 res] eqn:Hup. simpl.
  split; [done|]. split.
  - pose proof (upload_world df' w) as Hcases.
    rewrite Hup in Hcases. simpl in Hcases.
    destruct Hcases as [(_ & ->)|[(_ & _ & Hj)|(_ & _ & Hj)]];
      [by left|by right..].
  - intros col Hin. rewrite Hcols, bool_decide_eq_true_2 by done.
    destruct (proj1 (missing_columns_nil str_to_num df) Hmiss col) as [s Hs];
      [by apply price_columns_required|].
    rewrite Hs. simpl. destruct s; simpl; by eexists.
Qed.

End IngestorMore.

(** * Columns the validator does not ask for *)

Section OtherColumns.

Context {num : Type} {num_eq_dec : EqDecision num}.
Variable str_to_num : string -> option num.

Implicit Types (df : DataFrame num) (s : Series num) (col : string).

Lemma filter_agree {A : Type} (P Q : A -> Prop)
    `{!forall x, Decision (P x)} `{!forall x, Decision (Q x)} (l : list A) :
  (forall x, x ∈ l -> P x <-> Q x) -> filter P l = filter Q l.
Proof.
  induction l as [|x l IH]; intros Hagree; [done|].
  rewrite !filter_cons.
  assert (filter P l = filter Q l) as ->.
  { apply IH. intros y Hy. apply Hagree. by right. }
  assert (P x <-> Q x) as Hx by (apply Hagree; by left).
  destruct (decide (P x)), (decide (Q x)); tauto.
Qed.

(** The verdict is settled by the three checks before the loop over the
    price columns: once they pass, the loop cannot fail. *)
Lemma validate_outcome df :
  (validate_data str_to_num df).2 =
  match missing_columns df with
  | _ :: _ =>
      Returns false
        ("Missing required columns: " ++
         String.concat ", " (missing_columns df))
  | [] =>
      match getitem df "c_code" with
      | None => Raises KeyError
      | Some codes =>
          if any (isnull codes) || any (eq_scalar codes "") then
            Returns false "c_code column cannot have empty values"
          else if any (duplicated codes) then
            match join ", " (select (duplicated codes) (tolist codes)) with
            | inr listing =>
                Returns false ("Duplicate c_code values found: " ++ listing)
            | inl e => Raises e
            end
          else Returns true "Data validation successful"
      end
  end.
Proof.
  unfold validate_data.
  destruct (missing_columns df) as [|m ms] eqn:Hmiss; [|done].
  destruct (getitem df "c_code") as [codes|]; [|done].
  destruct (_ || _); [done|].
  destruct (any (duplicated codes)); [by destruct (join _ _)|].
  destruct (normalize_prices_ok str_to_num price_columns df)
    as (df' & -> & _); [|done].
  intros col Hin. apply (proj1 (missing_columns_nil str_to_num df) Hmiss).
  by apply price_columns_required.
Qed.

(** X13: a column that is not one of the four required ones has no say in
    the verdict: adding it, or replacing it, leaves what [validate_data]
    returns or raises unchanged, and the column itself comes out of the
    call as it went in. *)
Theorem validate_ignores_other_columns df col s :
  col ∉ required_columns ->
  (validate_data str_to_num (setitem df col s)).2 =
    (validate_data str_to_num df).2 /\
  getitem (validate_data str_to_num (setitem df col s)).1 col = Some s.
Proof.
  intros Hcol.
  assert (forall c, c ∈ required_columns ->
                    getitem (setitem df col s) c = getitem df c) as Hsame.
  { intros c Hc. rewrite getitem_setitem, bool_decide_eq_false_2; [done|].
    by intros ->. }
  assert (missing_columns (setitem df col s) = missing_columns df) as Hmiss.
  { unfold missing_columns. apply filter_agree. intros c Hc.
    rewrite <- !getitem_is_Some, (Hsame c Hc). done. }
  assert (getitem (setitem df col s) col = Some s) as Hnew.
  { by rewrite getitem_setitem, bool_decide_eq_true_2. }
  assert (col ∉ price_columns) as Hprice.
  { intros Hin. by apply Hcol, price_columns_required. }
  split.
  - rewrite !validate_outcome, Hmiss, (Hsame "c_code"); [done|by left].
  - destruct (validate_data_paths str_to_num (setitem df col s))
      as [(o & -> & _)|Hok]; [done|].
    destruct Hok as (codes & Hm & Hc & Hn & He & Hd).
    destruct (validate_data_ok str_to_num (setitem df col s) codes)
      as (df2 & -> & _ & Hcols); try done.
    simpl. by rewrite Hcols, bool_decide_eq_false_2.
Qed.

End OtherColumns.

(** * The template *)

(** X14: the template the application offers for download passes its own
    validation, whatever the number parser: [validate_data] accepts the
    frame of [create_template] and leaves it exactly as it is. *)
Theorem template_is_valid (str_to_num : string -> option Z) :
  validate_data str_to_num create_template =
    (create_template, Returns true "Data validation successful").
Proof. by vm_compute. Qed.

(** * The further properties on the scenarios *)

(** X2 on Scenario C. *)
Lemma validate_failure_keeps_frame_witness :
  (validate_data parse_digits scenario_C).1 = scenario_C.
Proof.
  apply (validate_failure_keeps_frame parse_digits scenario_C).
  intros msg. vm_compute. intros [=].
Defined.

(** X3 on Scenario A. *)
Lemma validated_frame_is_clean_witness :
  exists vals,
    getitem (validate_data parse_digits scenario_A).1 "flash_price" =
    Some (NumericSeries vals).
Proof.
  destruct (validated_frame_is_clean parse_digits scenario_A
              (validate_data parse_digits scenario_A).1
              "Data validation successful")
    as (_ & Hnumeric & _).
  - by vm_compute.
  - apply Hnumeric. by_compute.
Defined.

(** X6 on the code that occurs three times. *)
Lemma validate_failure_messages_witness :
  exists listed : list string,
    listed <> [] /\
    "Duplicate c_code values found: c-001, c-001" =
    "Duplicate c_code values found: " ++ String.concat ", " listed.
Proof.
  destruct (validate_failure_messages parse_digits scenario_triple
              "Duplicate c_code values found: c-001, c-001")
    as [[Hmiss _]|[Hfixed|Hlisted]].
  - by vm_compute.
  - by destruct Hmiss.
  - discriminate Hfixed.
  - exact Hlisted.
Defined.


(** X10 with a malformed secret next to a valid credential file. *)
Lemma secret_error_blocks_file_witness :
  upload_to_bigquery scenario_A world_with_bad_secret =
    (world_with_bad_secret,
     (false,
      "Error appending to BigQuery: Service account info was not in the expected format")).
Proof.
  apply (secret_error_blocks_file scenario_A world_with_bad_secret
           OtherException
           "Service account info was not in the expected format").
  - done.
  - discriminate.
  - discriminate.
Defined.

(** X11 with the template uploaded twice, the second time with credentials
    from another source. *)
Lemma upload_twice_appends_twice_witness :
  length
    (table (upload_to_bigquery create_template world_at_second_call).1) =
  7%nat.
Proof.
  destruct (upload_twice_appends_twice create_template world_with_file
              world_at_second_call)
    as (_ & Hlen & _).
  - by vm_compute.
  - reflexivity.
  - reflexivity.
  - by vm_compute.
  - rewrite Hlen. by vm_compute.
Defined.

(** X13 on Scenario A with a column of remarks. *)
Lemma validate_ignores_other_columns_witness :
  (validate_data parse_digits
     (setitem scenario_A "remarks" (ObjectSeries [Str "sold"; Null]))).2 =
  (validate_data parse_digits scenario_A).2.
Proof.
  destruct (validate_ignores_other_columns parse_digits scenario_A "remarks"
              (ObjectSeries [Str "sold"; Null])) as [Hsame _].
  - by_compute.
  - exact Hsame.
Defined.
